(** * The todo list component: fetch controller and filter projection

    A shallow embedding of [src/components/todo-list.component.tsx]:
    the asynchronous [fetchTodos] with its [try]/[catch]/[finally], the
    state slots of the [TodoList] component, and the filter effect that
    recomputes the filtered view. *)

From Stdlib Require Import ZArith String Bool DecimalString DecimalZ DecimalPos.
From stdpp Require Import base list.

Local Open Scope string_scope.
Local Open Scope list_scope.

(** ** Data model *)

(** Modelled from the spec: the record type [Todo], imported by the
    component from [../types/todo-type], whose declaration is not part of
    the sources at hand. The spec gives a task record an identifier, a
    display title and a completion flag; the component reads [todo.id],
    [todo.title] and [todo.completed]. *)
Record Todo : Type := mkTodo {
  id : Z;
  title : string;
  completed : bool
}.

(** [type Filter = 'All' | 'Open' | 'Completed'] *)
Inductive Filter : Type :=
| All
| Open
| Completed.

(** ** The filter projection

    The body of the second [useEffect], up to its single state write:
<<
    let updated = todos;
    if (filter === 'Open') {
      updated = todos.filter((todo) => !todo.completed);
    } else if (filter === 'Completed') {
      updated = todos.filter((todo) => todo.completed);
    }
>>
    [project todos filter] is the final value of [updated]. *)
Definition project (todos : list Todo) (filter : Filter) : list Todo :=
  let updated := todos in
  match filter with
  | Open => List.filter (fun todo => negb (completed todo)) todos
  | Completed => List.filter (fun todo => completed todo) todos
  | All => updated
  end.

(** Rebuilds a collection from its two partitions: walking the completion
    flags of the original collection in order, the next record is taken
    from [dones] when the flag is set and from [opens] otherwise. *)
Fixpoint reorder (flags : list bool) (opens dones : list Todo) : list Todo :=
  match flags with
  | [] => []
  | true :: flags' =>
      match dones with
      | t :: dones' => t :: reorder flags' opens dones'
      | [] => []
      end
  | false :: flags' =>
      match opens with
      | t :: opens' => t :: reorder flags' opens' dones
      | [] => []
      end
  end.

(** ** Values exchanged with the network *)

(** A JSON value, as [response.json()] can produce it. *)
#[warnings="-register-all"]
Inductive Json : Type :=
| JNull
| JBool (b : bool)
| JNumber (n : Z)
| JString (s : string)
| JArray (items : list Json)
| JObject (members : list (string * Json)).

Definition isArray (j : Json) : bool :=
  match j with
  | JArray _ => true
  | _ => false
  end.

(** What the slots [todos] and [filteredTodos] can hold at run time. The
    annotation in [const data: Todo[] = await response.json()] is erased by
    the compiler and nothing inspects the decoded value, so besides an array
    of task records a slot can receive any other JSON value. *)
Inductive Data : Type :=
| Records (records : list Todo)
| Untyped (value : Json).

(** A value caught by [catch (error)]: an instance of [Error] with its
    [message], or anything else that was thrown or used as a rejection
    reason. *)
Inductive Thrown : Type :=
| ErrorInstance (message : string)
| NotAnError (value : Json).

(** How a promise settles. *)
Inductive Settled (A : Type) : Type :=
| Fulfilled (value : A)
| Rejected (reason : Thrown).

Arguments Fulfilled {A} value.
Arguments Rejected {A} reason.

(** The part of a [Response] that [fetchTodos] touches: the [ok] flag, and
    the settlement of the promise returned by [response.json()]. [status]
    is carried along although the function never reads it. *)
Record Response : Type := mkResponse {
  ok : bool;
  status : Z;
  json : Settled Data
}.

(** ** Component state and the setters *)

(** The five [useState] slots of [TodoList]. *)
Record State : Type := mkState {
  todos : Data;
  filteredTodos : Data;
  loading : bool;
  error : option string;
  filter : Filter
}.

(** The initial values given to [useState]. *)
Definition initial : State :=
  {| todos := Records [];
     filteredTodos := Records [];
     loading := false;
     error := None;
     filter := All |}.

(** A call of one of the four setters of [FetchTodosParams]. *)
Inductive Write : Type :=
| SetTodos (data : Data)
| SetFilteredTodos (data : Data)
| SetLoading (flag : bool)
| SetError (message : option string).

(** What can be observed of a run, in the order it happens. [Request] and
    [ReadBody] are the two points where [fetchTodos] awaits; [Unmount] is
    React tearing the component down and is never performed by
    [fetchTodos] itself. *)
Inductive Event : Type :=
| Call (w : Write)
| Request (url : string)
| ReadBody
| Unmount.

Definition write (st : State) (w : Write) : State :=
  match w with
  | SetTodos data =>
      mkState data (filteredTodos st) (loading st) (error st) (filter st)
  | SetFilteredTodos data =>
      mkState (todos st) data (loading st) (error st) (filter st)
  | SetLoading flag =>
      mkState (todos st) (filteredTodos st) flag (error st) (filter st)
  | SetError message =>
      mkState (todos st) (filteredTodos st) (loading st) message (filter st)
  end.

Definition step (st : State) (e : Event) : State :=
  match e with
  | Call w => write st w
  | _ => st
  end.

(** The state after a sequence of events, starting from [st]. *)
Definition run (st : State) (es : list Event) : State :=
  fold_left step es st.

(** ** Asynchronous computations

    An [async] body is run against a network whose answers are given in
    advance: it yields the events it performed, in order, and how its
    promise settles. *)
Definition Async (A : Type) : Type := (list Event * Settled A)%type.

Definition trace {A : Type} (m : Async A) : list Event := fst m.
Definition settlement {A : Type} (m : Async A) : Settled A := snd m.

#[global] Instance Async_ret : MRet Async :=
  fun A a => ([], Fulfilled a).

#[global] Instance Async_bind : MBind Async :=
  fun A B k m =>
    match m with
    | (es, Fulfilled a) => let (fs, r) := k a in (es ++ fs, r)
    | (es, Rejected reason) => (es, Rejected reason)
    end.

(** [throw reason] *)
Definition throw {A : Type} (reason : Thrown) : Async A :=
  ([], Rejected reason).

(** Calling a setter: it is recorded and never throws. *)
Definition call (w : Write) : Async unit :=
  ([Call w], Fulfilled tt).

(** [await p], where starting the operation behind [p] shows as [e]. *)
Definition await {A : Type} (e : Event) (p : Settled A) : Async A :=
  ([e], p).

(** [try { body } catch (error) { handler error }] *)
Definition tryCatch (body : Async unit) (handler : Thrown -> Async unit)
  : Async unit :=
  match body with
  | (es, Fulfilled a) => (es, Fulfilled a)
  | (es, Rejected reason) => let (fs, r) := handler reason in (es ++ fs, r)
  end.

(** [try { body } finally { finalizer }]: the finalizer always runs; the
    outcome is the body's unless the finalizer itself throws. *)
Definition tryFinally (body : Async unit) (finalizer : Async unit)
  : Async unit :=
  let (es, r) := body in
  let (fs, r') := finalizer in
  (es ++ fs,
   match r' with
   | Rejected reason => Rejected reason
   | Fulfilled _ => r
   end).

(** ** The fetch controller *)

Definition todosUrl : string := "https://jsonplaceholder.typicode.com/todos".

(** [error instanceof Error ? error.message : 'unknown error occurred'] *)
Definition describe (error : Thrown) : string :=
  match error with
  | ErrorInstance message => message
  | NotAnError _ => "unknown error occurred"
  end.

(** The [try] block of [fetchTodos], with [net] the settlement of
    [fetch(todosUrl)]. *)
Definition tryBlock (net : Settled Response) : Async unit :=
  response ← await (Request todosUrl) net;
  (if negb (ok response)
   then throw (ErrorInstance "HTTP error! Status: 404")
   else mret tt);;
  data ← await ReadBody (json response);
  call (SetTodos data);;
  call (SetFilteredTodos data).

(** [fetchTodos]: the loading flag is raised, the [try] block runs, what it
    throws is caught and described in the error slot, and the loading flag
    is lowered in [finally]. *)
Definition fetchTodos (net : Settled Response) : Async unit :=
  call (SetLoading true);;
  tryFinally
    (tryCatch
       (tryBlock net)
       (fun error => call (SetError (Some (describe error)))))
    (call (SetLoading false)).

(** ** Reading a trace *)

(** The setter calls among the events. *)
Fixpoint calls (es : list Event) : list Write :=
  match es with
  | [] => []
  | Call w :: es' => w :: calls es'
  | _ :: es' => calls es'
  end.

Definition isSetTodos (w : Write) : bool :=
  match w with SetTodos _ => true | _ => false end.

Definition isSetError (w : Write) : bool :=
  match w with SetError _ => true | _ => false end.

Definition isSetLoading (w : Write) : bool :=
  match w with SetLoading _ => true | _ => false end.

(** Whether [setTodos] was called. *)
Definition todosWritten (es : list Event) : bool :=
  existsb isSetTodos (calls es).

(** The events up to and including the network request, and those after
    it: what [fetchTodos] does before it suspends on [fetch], and what it
    does once [fetch] has settled. *)
Fixpoint untilRequest (es : list Event) : list Event :=
  match es with
  | [] => []
  | Request u :: _ => [Request u]
  | e :: es' => e :: untilRequest es'
  end.

Fixpoint afterRequest (es : list Event) : list Event :=
  match es with
  | [] => []
  | Request _ :: es' => es'
  | _ :: es' => afterRequest es'
  end.

(** The values of the loading flag along a run: before the first event and
    after each one. *)
Fixpoint loadingHistory (st : State) (es : list Event) : list bool :=
  loading st ::
  match es with
  | [] => []
  | e :: es' => loadingHistory (step st e) es'
  end.

(** The number of places where a history goes from [true] to [false]. *)
Fixpoint falls (history : list bool) : nat :=
  match history with
  | [] => 0
  | b :: rest =>
      match b, rest with
      | true, false :: _ => 1
      | _, _ => 0
      end + falls rest
  end.

(** ** The mount effect and the component's lifetime
<<
    useEffect(() => {
      fetchTodos({ setTodos, setFilteredTodos, setLoading, setError });
    }, []);
>>
    The callback starts [fetchTodos] and returns nothing: the second
    component is the clean-up React would run on unmount, and there is
    none. *)
Definition mountEffect (net : Settled Response)
  : Async unit * option (list Event) :=
  (fetchTodos net, None).

(** The events of a component that is mounted and, when [tornDown] is set,
    unmounted while the request is still pending: React runs the effect's
    clean-up at that moment, and the rest of [fetchTodos] runs when the
    request settles. *)
Definition lifetime (tornDown : bool) (net : Settled Response) : list Event :=
  let (fetching, cleanup) := mountEffect net in
  untilRequest (trace fetching) ++
  (if tornDown then Unmount :: default [] cleanup else []) ++
  afterRequest (trace fetching).

(** The setter calls made after the component was unmounted. *)
Fixpoint callsAfterUnmount (es : list Event) : list Write :=
  match es with
  | [] => []
  | Unmount :: es' => calls es'
  | _ :: es' => callsAfterUnmount es'
  end.

(** ** Sample inputs *)

Definition milk : Todo := mkTodo 1 "Buy milk" false.
Definition bills : Todo := mkTodo 2 "Pay bills" true.

(** A successful response carrying the two records of the spec's
    scenario A. *)
Definition listResponse : Response :=
  mkResponse true 200 (Fulfilled (Records [milk; bills])).

(** A successful response whose body is valid JSON but an object, not an
    array. *)
Definition objectBody : Json := JObject [("message", JString "no list here")].
Definition objectResponse : Response :=
  mkResponse true 200 (Fulfilled (Untyped objectBody)).

(** A successful response whose body cannot be parsed. *)
Definition garbledResponse : Response :=
  mkResponse true 200 (Rejected (ErrorInstance "Unexpected token < in JSON")).

(** A response with a server-side failure status. *)
Definition serverErrorResponse : Response :=
  mkResponse false 500 (Fulfilled (Records [])).

(** A request that is rejected with an [Error] carrying no message. *)
Definition silentFailure : Settled Response := Rejected (ErrorInstance "").

(** A state left behind by an earlier, failed invocation. *)
Definition afterFailure : State :=
  mkState (Records []) (Records []) false (Some "Failed to fetch") All.

(** ** The filter effect on the component state

    The second [useEffect] reads the slots [todos] and [filter] and writes
    [filteredTodos]. Its callback runs on whatever value the raw slot holds
    at run time, so the reads it makes are followed on decoded JSON as
    well. *)

(** [filter === mode] *)
Definition Filter_eqb (a b : Filter) : bool :=
  match a, b with
  | All, All | Open, Open | Completed, Completed => true
  | _, _ => false
  end.

(** The value of a member of a decoded object; of several members with the
    same name, the decoder keeps the last. *)
Fixpoint member (name : string) (members : list (string * Json))
  : option Json :=
  match members with
  | [] => None
  | (k, v) :: rest =>
      match member name rest with
      | Some v' => Some v'
      | None => if String.eqb k name then Some v else None
      end
  end.

(** Whether a value counts as true in a condition. *)
Definition truthy (v : Json) : bool :=
  match v with
  | JNull => false
  | JBool b => b
  | JNumber n => negb (Z.eqb n 0)
  | JString s => negb (String.eqb s "")
  | JArray _ => true
  | JObject _ => true
  end.

(** [todo.completed] read as a condition on an element of a decoded array:
    reading a property of [null] throws ([None]); an object gives the truth
    value of its member, false when it has none; any other value has no
    such property. *)
Definition completedFlag (item : Json) : option bool :=
  match item with
  | JNull => None
  | JObject members =>
      Some (match member "completed" members with
            | Some v => truthy v
            | None => false
            end)
  | _ => Some false
  end.

(** [items.filter((todo) => keep(todo.completed))] on a decoded array: the
    callback is applied to the elements in order, and a throw in it ends
    the whole call. *)
Fixpoint filterItems (keep : bool -> bool) (items : list Json)
  : option (list Json) :=
  match items with
  | [] => Some []
  | item :: rest =>
      match completedFlag item with
      | None => None
      | Some flag =>
          match filterItems keep rest with
          | None => None
          | Some kept => Some (if keep flag then item :: kept else kept)
          end
      end
  end.

(** [value.filter(callback)] on a decoded value: only arrays have a
    [filter] to call; on anything else the call throws. *)
Definition filterUntyped (keep : bool -> bool) (value : Json) : option Json :=
  match value with
  | JArray items => option_map JArray (filterItems keep items)
  | _ => None
  end.

(** The value of [updated] when the effect reaches its state write, [None]
    when the callback throws before it. *)
Definition updatedValue (todos : Data) (filter : Filter) : option Data :=
  match todos with
  | Records records => Some (Records (project records filter))
  | Untyped value =>
      match filter with
      | All => Some (Untyped value)
      | Open => option_map Untyped (filterUntyped negb value)
      | Completed => option_map Untyped (filterUntyped (fun flag => flag) value)
      end
  end.

(** One run of the filter effect: [setFilteredTodos(updated)], or [None]
    when the callback throws. *)
Definition filterEffect (st : State) : option State :=
  option_map (fun updated => write st (SetFilteredTodos updated))
             (updatedValue (todos st) (filter st)).

(** A task record as the decoder delivers it. *)
Definition todoJson (todo : Todo) : Json :=
  JObject [("id", JNumber (id todo));
           ("title", JString (title todo));
           ("completed", JBool (completed todo))].

(** ** What is rendered *)

(** The two things a click can start: [setFilter(mode)] from a filter
    button, [onSelectTodo(id)] from a record's button. *)
Inductive Handler : Type :=
| SetFilter (mode : Filter)
| SelectTodo (id : Z).

Record Button : Type := mkButton {
  testId : string;
  className : option string;
  label : string;
  onClick : Handler
}.

(** [<li key={todo.id}>] around a record's button. *)
Record Item : Type := mkItem {
  key : Z;
  button : Button
}.

(** The parts of the rendered tree that depend on the state: the three
    filter buttons, the loading line, the error line and the list. The
    heading and the two fixed paragraphs are left out. *)
Record View : Type := mkView {
  filterButtons : list Button;
  loadingLine : option string;
  errorLine : option string;
  items : list Item
}.

(** [className={filter === mode ? 'active' : ''}] *)
Definition activeClass (filter mode : Filter) : option string :=
  Some (if Filter_eqb filter mode then "active" else "").

(** A whole number inside a template literal: its decimal digits, with a
    minus sign when negative. *)
Definition numberText (n : Z) : string :=
  NilZero.string_of_int (Z.to_int n).

(** The button of one record of the filtered view. *)
Definition todoItem (todo : Todo) : Item :=
  mkItem (id todo)
         (mkButton ("todo-" ++ numberText (id todo))%string None (title todo)
                   (SelectTodo (id todo))).

(** The returned JSX, on slots typed as the component declares them. A
    [false] or [null] operand of [&&] renders nothing, and so does the
    empty string, which is what [error && ...] evaluates to when the
    message is empty. *)
Definition render (filter : Filter) (loading : bool) (error : option string)
    (filteredTodos : list Todo) : View :=
  mkView
    [mkButton "filter-all" (activeClass filter All) "All" (SetFilter All);
     mkButton "filter-open" (activeClass filter Open) "Open" (SetFilter Open);
     mkButton "filter-completed" (activeClass filter Completed) "Completed"
              (SetFilter Completed)]
    (if loading then Some "Loading todos..." else None)
    (match error with
     | None => None
     | Some message =>
         if String.eqb message "" then None
         else Some ("Error loading todos: " ++ message)%string
     end)
    (map todoItem filteredTodos).

(** ** The component in use *)

(** [setFilter(mode)] *)
Definition setFilter (st : State) (mode : Filter) : State :=
  mkState (todos st) (filteredTodos st) (loading st) (error st) mode.

(** A click on a filter button. Setting the mode that is already active
    changes nothing and no effect runs; otherwise the filter effect runs on
    the new mode, since [filter] is one of its dependencies. *)
Definition filterClicked (st : State) (mode : Filter) : option State :=
  if Filter_eqb mode (filter st) then Some st
  else filterEffect (setFilter st mode).

(** A click on a rendered button: the state it leads to ([None] when an
    effect throws) and the identifiers passed to [onSelectTodo]. *)
Definition click (st : State) (b : Button) : option State * list Z :=
  match onClick b with
  | SetFilter mode => (filterClicked st mode, [])
  | SelectTodo i => (Some st, [i])
  end.

(** The pending fetch settles: the rest of [fetchTodos] runs, and the
    filter effect follows when [setTodos] was called, since [todos] is its
    other dependency. *)
Definition fetchSettled (st : State) (net : Settled Response) : option State :=
  let es := afterRequest (trace (fetchTodos net)) in
  if todosWritten es then filterEffect (run st es) else Some (run st es).

(** What happens to a mounted component. *)
Inductive Input : Type :=
| FilterClick (mode : Filter)
| FetchSettles.

(** A mounted component: its state, and whether its fetch is still
    pending. *)
Record Session : Type := mkSession {
  component : State;
  pending : bool
}.

(** Mounting: both effects run once, in the order they are declared. The
    first starts [fetchTodos], which runs up to its request; the second is
    the filter effect. *)
Definition mount (net : Settled Response) : option Session :=
  option_map (fun st => mkSession st true)
             (filterEffect (run initial (untilRequest (trace (fetchTodos net))))).

Definition react (net : Settled Response) (s : Session) (i : Input)
  : option Session :=
  match i with
  | FilterClick mode =>
      option_map (fun st => mkSession st (pending s))
                 (filterClicked (component s) mode)
  | FetchSettles =>
      if pending s
      then option_map (fun st => mkSession st false)
                      (fetchSettled (component s) net)
      else Some s
  end.

(** The component after a sequence of inputs, [None] once an effect has
    thrown. *)
Fixpoint reactAll (net : Settled Response) (s : Session) (inputs : list Input)
  : option Session :=
  match inputs with
  | [] => Some s
  | i :: rest =>
      match react net s i with
      | None => None
      | Some s' => reactAll net s' rest
      end
  end.

Definition session (net : Settled Response) (inputs : list Input)
  : option Session :=
  match mount net with
  | None => None
  | Some s => reactAll net s inputs
  end.

(** The mode of the last filter click among the inputs, [start] when there
    is none. *)
Fixpoint lastClicked (start : Filter) (inputs : list Input) : Filter :=
  match inputs with
  | [] => start
  | FilterClick mode :: rest => lastClicked mode rest
  | FetchSettles :: rest => lastClicked start rest
  end.

(** Whether the fetch has settled among the inputs. *)
Definition settled (inputs : list Input) : bool :=
  existsb (fun i => match i with FetchSettles => true | _ => false end) inputs.

(** Whether what the network delivers has the shape the component
    declares: a failure of any kind, or an array of task records. *)
Definition wellTyped (net : Settled Response) : bool :=
  match net with
  | Rejected _ => true
  | Fulfilled response =>
      if ok response then
        match json response with
        | Fulfilled (Untyped _) => false
        | _ => true
        end
      else true
  end.

(** ** Counting what a run does *)

(** The addresses requested, in order. *)
Fixpoint requests (es : list Event) : list string :=
  match es with
  | [] => []
  | Request u :: es' => u :: requests es'
  | _ :: es' => requests es'
  end.

(** How many times a response body was read. *)
Fixpoint bodyReads (es : list Event) : nat :=
  match es with
  | [] => 0
  | ReadBody :: es' => S (bodyReads es')
  | _ :: es' => bodyReads es'
  end.

Definition isSetFilteredTodos (w : Write) : bool :=
  match w with SetFilteredTodos _ => true | _ => false end.

(** Whether a button carries the class [active]. *)
Definition isActive (b : Button) : bool :=
  match className b with
  | Some c => String.eqb c "active"
  | None => false
  end.

(** ** Invariants *)

(** The filtered view is the projection of the raw collection under the
    current mode, both being arrays of task records. *)
Definition inSync (st : State) : Prop :=
  exists records,
    todos st = Records records /\
    filteredTodos st = Records (project records (filter st)).

(** What holds of a mounted component between two inputs, when the network
    delivers what the component declares: the view is in sync; the loading
    flag is up exactly while the fetch is pending; until the fetch settles
    there are no records and no error; and from then on the raw collection
    and the error slot are those of [fetchTodos] run on its own from the
    initial state. *)
Definition sessionInv (net : Settled Response) (s : Session) : Prop :=
  inSync (component s) /\
  loading (component s) = pending s /\
  if pending s
  then todos (component s) = Records [] /\ error (component s) = None
  else todos (component s) = todos (run initial (trace (fetchTodos net))) /\
       error (component s) = error (run initial (trace (fetchTodos net))).

(** ** Properties of the filter projection *)

Section FilterFacts.

Variable keep : Todo -> bool.

Lemma filter_sublist_of (R : list Todo) :
  List.filter keep R `sublist_of` R.
Proof.
  induction R as [|t R IH]; simpl.
  - constructor.
  - destruct (keep t).
    + by apply sublist_skip.
    + by apply sublist_cons.
Qed.

Lemma filter_elem_of (R : list Todo) (t : Todo) :
  t ∈ List.filter keep R <-> t ∈ R /\ keep t = true.
Proof.
  rewrite !list_elem_of_In. apply List.filter_In.
Qed.

End FilterFacts.

Lemma partition_Permutation (R : list Todo) :
  List.filter (fun todo => negb (completed todo)) R ++
  List.filter (fun todo => completed todo) R ≡ₚ R.
Proof.
  induction R as [|t R IH]; simpl; [done|].
  destruct (completed t); simpl.
  - rewrite <- Permutation_middle. by constructor.
  - by constructor.
Qed.

Lemma reorder_partition (R : list Todo) :
  reorder (map completed R)
          (List.filter (fun todo => negb (completed todo)) R)
          (List.filter (fun todo => completed todo) R) = R.
Proof.
  induction R as [|t R IH]; simpl; [done|].
  destruct (completed t); simpl; by rewrite IH.
Qed.

(** Scenario A of the spec, run through the projection. *)
Example scenario_A :
  project [milk; bills] All = [milk; bills] /\
  project [milk; bills] Open = [milk] /\
  project [milk; bills] Completed = [bills].
Proof. repeat split. Qed.

(** Scenario D of the spec: an empty collection stays empty under every
    mode. *)
Example scenario_D (M : Filter) : project [] M = [].
Proof. by destruct M. Qed.

(** C5: for every collection [R] and every mode [M], [project R M] is a
    subsequence of [R] that keeps the relative order of its records, and
    under mode [All] the result is [R] itself. *)
Theorem project_subsequence (R : list Todo) (M : Filter) :
  project R M `sublist_of` R /\ project R All = R.
Proof.
  split; [|reflexivity].
  destruct M; simpl.
  - reflexivity.
  - apply filter_sublist_of.
  - apply filter_sublist_of.
Qed.

(** C2: under [Open] the projection holds exactly the records of [R] whose
    completion flag is false, under [Completed] exactly those whose flag is
    true (same records, same order, same multiplicity); no record is in
    both results; and the two results together are a rearrangement of [R]
    which, put back in [R]'s order, is [R]. *)
Theorem project_partition (R : list Todo) :
  (forall t, t ∈ project R Open <-> t ∈ R /\ completed t = false) /\
  (forall t, t ∈ project R Completed <-> t ∈ R /\ completed t = true) /\
  project R Open `sublist_of` R /\
  project R Completed `sublist_of` R /\
  (forall t, t ∈ project R Open -> t ∈ project R Completed -> False) /\
  project R Open ++ project R Completed ≡ₚ R /\
  reorder (map completed R) (project R Open) (project R Completed) = R.
Proof.
  unfold project.
  assert (Hopen : forall t,
    t ∈ List.filter (fun todo => negb (completed todo)) R <->
    t ∈ R /\ completed t = false).
  { intros t. rewrite filter_elem_of, negb_true_iff. reflexivity. }
  assert (Hdone : forall t,
    t ∈ List.filter (fun todo => completed todo) R <->
    t ∈ R /\ completed t = true).
  { intros t. apply filter_elem_of. }
  split_and!.
  - exact Hopen.
  - exact Hdone.
  - apply filter_sublist_of.
  - apply filter_sublist_of.
  - intros t [_ Ho]%Hopen [_ Hd]%Hdone. congruence.
  - apply partition_Permutation.
  - apply reorder_partition.
Qed.

(** C8: projecting under [All] first and then under [M] gives what
    projecting under [M] directly gives. *)
Theorem project_All_then (R : list Todo) (M : Filter) :
  project (project R All) M = project R M.
Proof. reflexivity. Qed.

(** ** Properties of the fetch controller *)

(** The four shapes a run of [fetchTodos] can take. *)
Lemma fetchTodos_unfold (net : Settled Response) :
  fetchTodos net =
  match net with
  | Rejected reason =>
      ([Call (SetLoading true); Request todosUrl;
        Call (SetError (Some (describe reason))); Call (SetLoading false)],
       Fulfilled tt)
  | Fulfilled response =>
      if ok response then
        match json response with
        | Fulfilled data =>
            ([Call (SetLoading true); Request todosUrl; ReadBody;
              Call (SetTodos data); Call (SetFilteredTodos data);
              Call (SetLoading false)],
             Fulfilled tt)
        | Rejected reason =>
            ([Call (SetLoading true); Request todosUrl; ReadBody;
              Call (SetError (Some (describe reason)));
              Call (SetLoading false)],
             Fulfilled tt)
        end
      else
        ([Call (SetLoading true); Request todosUrl;
          Call (SetError (Some "HTTP error! Status: 404"));
          Call (SetLoading false)],
         Fulfilled tt)
  end.
Proof.
  destruct net as [[ok_ status_ json_]|reason]; [|reflexivity].
  destruct ok_; [|reflexivity].
  destruct json_; reflexivity.
Qed.

(** Splits a goal about [fetchTodos net] into the four runs. *)
Ltac fetch_cases net :=
  rewrite ?(fetchTodos_unfold net);
  let ok_ := fresh "ok_" in
  let status_ := fresh "status_" in
  let json_ := fresh "json_" in
  let reason := fresh "reason" in
  destruct net as [[ok_ status_ json_]|reason];
  [destruct ok_; [destruct json_ as [?data|?reason]|]|];
  cbn [ok json status trace settlement fst snd] in *.

(** No failure escapes: the promise returned by [fetchTodos] is always
    fulfilled. *)
Lemma fetchTodos_settles (net : Settled Response) :
  settlement (fetchTodos net) = Fulfilled tt.
Proof. fetch_cases net; reflexivity. Qed.

Lemma describe_nonempty (reason : Thrown) :
  reason <> ErrorInstance "" -> describe reason <> "".
Proof.
  destruct reason as [message|value]; simpl.
  - intros Hne ->. by apply Hne.
  - discriminate.
Qed.

(** Scenario B of the spec: a 404 leaves a message, no records, and the
    loading flag down. *)
Example scenario_B :
  let st := run initial
              (trace (fetchTodos (Fulfilled (mkResponse false 404
                                               (Fulfilled (Records [])))))) in
  error st = Some "HTTP error! Status: 404" /\
  todos st = Records [] /\
  loading st = false.
Proof. repeat split. Qed.

(** *** How an invocation starts *)

(** C3, as the code has it: the only side effect of [fetchTodos] before the
    network read is [setLoading(true)]. The error slot is not written
    before the read: when the request is issued the loading flag is up and
    the error slot still holds what it held on entry. *)
Theorem fetchTodos_first_effects (st : State) (net : Settled Response) :
  untilRequest (trace (fetchTodos net)) =
    [Call (SetLoading true); Request todosUrl] /\
  loading (run st (untilRequest (trace (fetchTodos net)))) = true /\
  error (run st (untilRequest (trace (fetchTodos net)))) = error st.
Proof. fetch_cases net; repeat split. Qed.

(** C3 as stated fails, whether it is read on the calls made or on the
    state reached: before the request goes out no call clears the error
    slot, and a stale message is still in the slot at that point. *)
Lemma fetchTodos_first_effects_counterexample :
  ~ (Call (SetLoading true)
       ∈ untilRequest (trace (fetchTodos (Fulfilled listResponse))) /\
     Call (SetError None)
       ∈ untilRequest (trace (fetchTodos (Fulfilled listResponse)))) /\
  ~ (loading (run afterFailure
                (untilRequest (trace (fetchTodos (Fulfilled listResponse)))))
       = true /\
     error (run afterFailure
              (untilRequest (trace (fetchTodos (Fulfilled listResponse)))))
       = None).
Proof.
  split.
  - intros [_ Hcall]. vm_compute in Hcall.
    apply elem_of_cons in Hcall as [Heq|Hcall]; [discriminate|].
    apply elem_of_cons in Hcall as [Heq|Hcall]; [discriminate|].
    by apply elem_of_nil in Hcall.
  - intros [_ Herr]. vm_compute in Herr. discriminate.
Qed.

(** *** How an invocation ends *)

(** C4: whatever the network does, the trace of [fetchTodos] is
    [setLoading(true)], then events among which the loading flag is not
    touched and the raw collection or the error slot is written, then
    [setLoading(false)] as the very last event. Along the run the loading
    flag falls from true to false exactly once, and it ends false. *)
Theorem fetchTodos_clears_loading_last (st : State) (net : Settled Response) :
  exists mid : list Event,
    trace (fetchTodos net) =
      Call (SetLoading true) :: mid ++ [Call (SetLoading false)] /\
    existsb isSetLoading (calls mid) = false /\
    existsb (fun w => isSetTodos w || isSetError w) (calls mid) = true /\
    falls (loadingHistory st (trace (fetchTodos net))) = 1 /\
    loading (run st (trace (fetchTodos net))) = false.
Proof.
  fetch_cases net.
  - exists [Request todosUrl; ReadBody; Call (SetTodos data);
            Call (SetFilteredTodos data)].
    destruct st as [? ? [] ? ?]; repeat split.
  - exists [Request todosUrl; ReadBody;
            Call (SetError (Some (describe reason)))].
    destruct st as [? ? [] ? ?]; repeat split.
  - exists [Request todosUrl;
            Call (SetError (Some "HTTP error! Status: 404"))].
    destruct st as [? ? [] ? ?]; repeat split.
  - exists [Request todosUrl; Call (SetError (Some (describe reason)))].
    destruct st as [? ? [] ? ?]; repeat split.
Qed.

(** *** Success *)

(** C7: on a successful fetch the decoded collection is handed to
    [setTodos] and to [setFilteredTodos] in the same invocation, so once
    [fetchTodos] is done, and with no filter recomputation among its
    events, both slots hold it. *)
Theorem fetchTodos_publishes_both
    (st : State) (response : Response) (data : Data) :
  ok response = true ->
  json response = Fulfilled data ->
  calls (trace (fetchTodos (Fulfilled response))) =
    [SetLoading true; SetTodos data; SetFilteredTodos data;
     SetLoading false] /\
  todos (run st (trace (fetchTodos (Fulfilled response)))) = data /\
  filteredTodos (run st (trace (fetchTodos (Fulfilled response)))) = data.
Proof.
  intros Hok Hjson. rewrite fetchTodos_unfold, Hok, Hjson.
  repeat split.
Qed.

Lemma fetchTodos_publishes_both_witness :
  calls (trace (fetchTodos (Fulfilled listResponse))) =
    [SetLoading true; SetTodos (Records [milk; bills]);
     SetFilteredTodos (Records [milk; bills]); SetLoading false] /\
  todos (run initial (trace (fetchTodos (Fulfilled listResponse))))
    = Records [milk; bills] /\
  filteredTodos (run initial (trace (fetchTodos (Fulfilled listResponse))))
    = Records [milk; bills].
Proof.
  apply (fetchTodos_publishes_both initial listResponse); reflexivity.
Defined.

(** *** Failure *)

(** C10: whatever the status code of a response that is not [ok], the
    message published is the literal ['HTTP error! Status: 404']; the body
    is not read and the raw collection is not written. *)
Theorem fetchTodos_http_error (st : State) (response : Response) :
  ok response = false ->
  trace (fetchTodos (Fulfilled response)) =
    [Call (SetLoading true); Request todosUrl;
     Call (SetError (Some "HTTP error! Status: 404"));
     Call (SetLoading false)] /\
  error (run st (trace (fetchTodos (Fulfilled response))))
    = Some "HTTP error! Status: 404".
Proof.
  intros Hok. rewrite fetchTodos_unfold, Hok. split; reflexivity.
Qed.

Lemma fetchTodos_http_error_witness :
  status serverErrorResponse = 500%Z /\
  error (run initial (trace (fetchTodos (Fulfilled serverErrorResponse))))
    = Some "HTTP error! Status: 404".
Proof.
  split; [reflexivity|].
  apply (fetchTodos_http_error initial serverErrorResponse). reflexivity.
Defined.

(** C6, as the code has it: when the source answers successfully and
    reading the body fails, the error slot ends with the description of the
    failure (non-empty unless the failure is an [Error] with an empty
    message) and the raw collection is left as it was. A body that decodes
    to something other than an array is not a failure for [fetchTodos]: the
    value is published as it is and the error slot is not written. *)
Theorem fetchTodos_body_failure (st : State) (response : Response) :
  ok response = true ->
  (forall reason, json response = Rejected reason ->
     error (run st (trace (fetchTodos (Fulfilled response))))
       = Some (describe reason) /\
     (reason <> ErrorInstance "" -> describe reason <> "") /\
     todosWritten (trace (fetchTodos (Fulfilled response))) = false /\
     todos (run st (trace (fetchTodos (Fulfilled response)))) = todos st) /\
  (forall value, json response = Fulfilled (Untyped value) ->
     todos (run st (trace (fetchTodos (Fulfilled response))))
       = Untyped value /\
     error (run st (trace (fetchTodos (Fulfilled response)))) = error st).
Proof.
  intros Hok. rewrite fetchTodos_unfold, Hok. split.
  - intros reason ->. split_and!; try reflexivity. apply describe_nonempty.
  - intros value ->. split; reflexivity.
Qed.

Lemma fetchTodos_body_failure_witness :
  error (run initial (trace (fetchTodos (Fulfilled garbledResponse))))
    = Some "Unexpected token < in JSON" /\
  todos (run initial (trace (fetchTodos (Fulfilled garbledResponse))))
    = Records [].
Proof.
  destruct (fetchTodos_body_failure initial garbledResponse eq_refl)
    as [Hfail _].
  destruct (Hfail _ eq_refl) as (Herr & _ & _ & Htodos).
  split; [exact Herr | exact Htodos].
Defined.

(** C6 as stated fails: an object is a non-array body of a successful
    response, and after the fetch the error slot is empty while the raw
    collection holds the object. *)
Lemma fetchTodos_body_failure_counterexample :
  ok objectResponse = true /\
  json objectResponse = Fulfilled (Untyped objectBody) /\
  isArray objectBody = false /\
  ~ ((exists m,
        error (run initial (trace (fetchTodos (Fulfilled objectResponse))))
          = Some m /\ m <> "") /\
     todos (run initial (trace (fetchTodos (Fulfilled objectResponse))))
       = Records []).
Proof.
  split_and!; try reflexivity.
  intros [_ Htodos]. vm_compute in Htodos. discriminate.
Qed.

(** *** The two outcomes *)

(** C1, as the code has it: for an invocation entered with the error slot
    absent, as at mount, exactly one of two outcomes holds once it has
    settled. Either the [try] block ran to its end: [setTodos] was called,
    the raw collection is the decoded body and the error slot is still
    absent. Or the [try] block threw: the error slot holds the description
    of what was thrown (non-empty unless that is an [Error] with an empty
    message), [setTodos] was not called and the raw collection is what it
    was on entry. *)
Theorem fetchTodos_exclusive_outcomes (st : State) (net : Settled Response) :
  error st = None ->
  let es := trace (fetchTodos net) in
  let updated :=
    todosWritten es = true /\
    error (run st es) = None /\
    exists response data,
      net = Fulfilled response /\ json response = Fulfilled data /\
      todos (run st es) = data in
  let failed :=
    exists reason,
      settlement (tryBlock net) = Rejected reason /\
      error (run st es) = Some (describe reason) /\
      (reason <> ErrorInstance "" -> describe reason <> "") /\
      todosWritten es = false /\
      todos (run st es) = todos st in
  (updated \/ failed) /\ ~ (updated /\ failed).
Proof.
  intros Herr es updated failed. subst es updated failed.
  fetch_cases net.
  - split.
    + left. split_and!; try done. by eexists _, _.
    + intros [_ (reason & _ & Hsome & _)]. simpl in Hsome. congruence.
  - split.
    + right. exists reason. split_and!; try done. apply describe_nonempty.
    + intros [(Hwritten & _) _]. discriminate.
  - split.
    + right. eexists. split_and!; try done.
    + intros [(Hwritten & _) _]. discriminate.
  - split.
    + right. exists reason. split_and!; try done. apply describe_nonempty.
    + intros [(Hwritten & _) _]. discriminate.
Qed.

Lemma fetchTodos_exclusive_outcomes_witness :
  error initial = None /\
  todosWritten (trace (fetchTodos (Fulfilled listResponse))) = true /\
  error (run initial (trace (fetchTodos (Fulfilled listResponse)))) = None.
Proof.
  split; [reflexivity|].
  destruct (fetchTodos_exclusive_outcomes initial (Fulfilled listResponse)
              eq_refl) as [[(Hw & He & _)|(reason & Hthrown & _)] _].
  - split; [exact Hw | exact He].
  - discriminate Hthrown.
Defined.

(** C1 as stated fails twice over. Entered with a stale message in the
    error slot, a successful fetch updates the raw collection and leaves
    the message in place: neither outcome holds. And a request rejected
    with an [Error] whose message is empty leaves an empty message in the
    error slot: again neither outcome holds. *)
Lemma fetchTodos_exclusive_outcomes_counterexample :
  ~ (((todosWritten (trace (fetchTodos (Fulfilled listResponse))) = true /\
       error (run afterFailure (trace (fetchTodos (Fulfilled listResponse))))
         = None) \/
      ((exists m,
          error (run afterFailure
                   (trace (fetchTodos (Fulfilled listResponse)))) = Some m /\
          m <> "") /\
       todos (run afterFailure (trace (fetchTodos (Fulfilled listResponse))))
         = todos afterFailure))) /\
  ~ (((todosWritten (trace (fetchTodos silentFailure)) = true /\
       error (run initial (trace (fetchTodos silentFailure))) = None) \/
      ((exists m,
          error (run initial (trace (fetchTodos silentFailure))) = Some m /\
          m <> "") /\
       todos (run initial (trace (fetchTodos silentFailure)))
         = todos initial))).
Proof.
  split.
  - intros [[_ Herr]|[_ Htodos]].
    + vm_compute in Herr. discriminate.
    + vm_compute in Htodos. discriminate.
  - intros [[Hwritten _]|[(m & Hsome & Hne) _]].
    + vm_compute in Hwritten. discriminate.
    + vm_compute in Hsome. apply Hne. congruence.
Qed.

(** *** Teardown while the request is pending *)

Lemma lifetime_mounted (net : Settled Response) :
  lifetime false net = trace (fetchTodos net).
Proof. fetch_cases net; reflexivity. Qed.

(** C9, as the code has it: [fetchTodos] receives the four setters and
    nothing that tells whether the component is still mounted, and the
    mount effect registers no clean-up. When the component is unmounted
    while the request is pending, every setter call that follows the
    request is still made once it settles: the calls are those of an
    undisturbed run, and the last of them is [setLoading(false)]. *)
Theorem fetchTodos_ignores_teardown (net : Settled Response) :
  snd (mountEffect net) = None /\
  callsAfterUnmount (lifetime true net)
    = calls (afterRequest (trace (fetchTodos net))) /\
  calls (lifetime true net) = calls (lifetime false net) /\
  last (callsAfterUnmount (lifetime true net)) = Some (SetLoading false).
Proof. fetch_cases net; repeat split. Qed.

(** C9 as stated fails: unmounted before the request settles, the
    component still receives the fetched records and the final
    [setLoading(false)]. *)
Lemma fetchTodos_ignores_teardown_counterexample :
  ~ (callsAfterUnmount (lifetime true (Fulfilled listResponse)) = []).
Proof. vm_compute. discriminate. Qed.

(** ** Further properties of the filter projection *)

Section FilterAlgebra.

Variables keep keep' : Todo -> bool.

Lemma filter_twice (R : list Todo) :
  List.filter keep (List.filter keep R) = List.filter keep R.
Proof.
  induction R as [|t R IH]; simpl; [done|].
  destruct (keep t) eqn:Hk; simpl; [|done].
  by rewrite Hk, IH.
Qed.

Lemma filter_excluded (R : list Todo) :
  (forall t, keep t = true -> keep' t = false) ->
  List.filter keep' (List.filter keep R) = [].
Proof.
  intros Hex. induction R as [|t R IH]; simpl; [done|].
  destruct (keep t) eqn:Hk; simpl; [|done].
  by rewrite (Hex t Hk).
Qed.

Lemma filter_all_iff (R : list Todo) :
  List.filter keep R = R <-> forall t, t ∈ R -> keep t = true.
Proof.
  split.
  - intros Heq t Hin. rewrite <- Heq in Hin.
    by apply filter_elem_of in Hin as [_ ?].
  - induction R as [|t R IH]; simpl; [done|].
    intros Hall. rewrite (Hall t) by apply list_elem_of_here.
    f_equal. apply IH. intros u Hu. apply Hall. by apply list_elem_of_further.
Qed.

Lemma filter_none_iff (R : list Todo) :
  List.filter keep R = [] <-> forall t, t ∈ R -> keep t = false.
Proof.
  split.
  - intros Heq t Hin. destruct (keep t) eqn:Hk; [|done].
    assert (Hf : t ∈ List.filter keep R) by by apply filter_elem_of.
    rewrite Heq in Hf. by apply elem_of_nil in Hf.
  - induction R as [|t R IH]; simpl; [done|].
    intros Hnone. rewrite (Hnone t) by apply list_elem_of_here.
    apply IH. intros u Hu. apply Hnone. by apply list_elem_of_further.
Qed.

End FilterAlgebra.

Lemma sublist_map {A B : Type} (f : A -> B) (l1 l2 : list A) :
  l1 `sublist_of` l2 -> map f l1 `sublist_of` map f l2.
Proof.
  induction 1; simpl.
  - constructor.
  - by apply sublist_skip.
  - by apply sublist_cons.
Qed.

(** X1: projecting twice under the same mode gives what projecting once
    gives. *)
Theorem project_idempotent (R : list Todo) (M : Filter) :
  project (project R M) M = project R M.
Proof.
  destruct M; simpl; [done| |]; apply filter_twice.
Qed.

(** X2: the open part of a collection has no completed record and the
    completed part no open one: projecting under one of the two modes and
    then under the other leaves nothing, whatever the collection. *)
Theorem project_opposite_modes (R : list Todo) :
  project (project R Open) Completed = [] /\
  project (project R Completed) Open = [].
Proof.
  split; simpl; apply filter_excluded; intros t Ht.
  - by apply negb_true_iff in Ht.
  - by rewrite Ht.
Qed.

(** X3: the projection works record by record: on two collections put end
    to end it gives the two projections put end to end. *)
Theorem project_app (R1 R2 : list Todo) (M : Filter) :
  project (R1 ++ R2) M = project R1 M ++ project R2 M.
Proof.
  destruct M; simpl; [done| |]; apply List.filter_app.
Qed.

(** X4: no record is lost or duplicated by splitting: the open and the
    completed records of a collection are together as many as the
    collection has, and no projection is longer than the collection. *)
Theorem project_length (R : list Todo) (M : Filter) :
  length (project R Open) + length (project R Completed) = length R /\
  length (project R M) <= length R.
Proof.
  split.
  - rewrite <- length_app. apply Permutation_length, partition_Permutation.
  - apply sublist_length. destruct M; simpl; [done| |]; apply filter_sublist_of.
Qed.

(** X5: when the identifiers of a collection are pairwise distinct, so are
    those of any projection of it, as the list keys of the rendered records
    need them to be. *)
Theorem project_NoDup_ids (R : list Todo) (M : Filter) :
  NoDup (map id R) -> NoDup (map id (project R M)).
Proof.
  intros Hdup. apply (sublist_NoDup _ _ Hdup), sublist_map.
  destruct M; simpl; [done| |]; apply filter_sublist_of.
Qed.

Lemma project_NoDup_ids_witness :
  NoDup (map id [milk; bills]) /\
  NoDup (map id (project [milk; bills] Completed)).
Proof.
  assert (Hdup : NoDup (map id [milk; bills])).
  { apply NoDup_cons. split.
    - intros Hin. apply elem_of_cons in Hin as [Heq|Hin]; [discriminate|].
      by apply elem_of_nil in Hin.
    - apply NoDup_cons. split; [apply not_elem_of_nil | constructor]. }
  split; [exact Hdup|].
  exact (project_NoDup_ids [milk; bills] Completed Hdup).
Defined.

(** X6: the open view shows the whole collection exactly when no record is
    completed, which is also exactly when the completed view is empty; and
    the same with the two modes exchanged. *)
Theorem project_all_or_nothing (R : list Todo) :
  (project R Open = R <-> project R Completed = []) /\
  (project R Completed = R <-> project R Open = []) /\
  (project R Completed = [] <-> forall t, t ∈ R -> completed t = false) /\
  (project R Open = [] <-> forall t, t ∈ R -> completed t = true).
Proof.
  simpl.
  assert (Hopen : forall t : Todo,
            negb (completed t) = true <-> completed t = false)
    by (intros t; apply negb_true_iff).
  assert (Hdone : forall t : Todo,
            negb (completed t) = false <-> completed t = true)
    by (intros t; apply negb_false_iff).
  split_and!.
  - rewrite filter_all_iff, filter_none_iff.
    split; intros H t Ht; by apply Hopen, H.
  - rewrite filter_all_iff, filter_none_iff.
    split; intros H t Ht; by apply Hdone, H.
  - apply filter_none_iff.
  - rewrite filter_none_iff. split; intros H t Ht; by apply Hdone, H.
Qed.

(** ** Further properties of the fetch controller *)

(** X7: the promise returned by [fetchTodos] is fulfilled whatever the
    network does, so no failure escapes to the caller; and the [try] block
    runs to its end exactly when the response is [ok] and its body can be
    read. *)
Theorem fetchTodos_never_rejects (net : Settled Response) :
  settlement (fetchTodos net) = Fulfilled tt /\
  (settlement (tryBlock net) = Fulfilled tt <->
   exists response data,
     net = Fulfilled response /\ ok response = true /\
     json response = Fulfilled data).
Proof.
  split; [fetch_cases net; reflexivity|].
  destruct net as [[[] status_ [data|reason]]|reason].
  - split; [intros _; by eexists _, _ | reflexivity].
  - split; [discriminate|].
    intros (r & d & [= <-] & _ & Hjson). discriminate Hjson.
  - split; [discriminate|].
    intros (r & d & [= <-] & Hok & _). discriminate Hok.
  - split; [discriminate|].
    intros (r & d & [= <-] & Hok & _). discriminate Hok.
  - split; [discriminate|].
    intros (r & d & Hnet & _). discriminate Hnet.
Qed.

(** X8: every invocation issues exactly one request, to the fixed address,
    and reads the body once when the response is [ok] and not at all
    otherwise. *)
Theorem fetchTodos_single_request (net : Settled Response) :
  requests (trace (fetchTodos net)) = [todosUrl] /\
  bodyReads (trace (fetchTodos net)) =
    match net with
    | Fulfilled response => if ok response then 1 else 0
    | Rejected _ => 0
    end.
Proof. fetch_cases net; split; reflexivity. Qed.

(** X9: every invocation makes exactly one outcome write: [setTodos] once
    and [setError] never, or [setError] once and [setTodos] never;
    [setFilteredTodos] is called as often as [setTodos]. *)
Theorem fetchTodos_one_outcome_write (net : Settled Response) :
  length (List.filter isSetTodos (calls (trace (fetchTodos net)))) +
  length (List.filter isSetError (calls (trace (fetchTodos net)))) = 1 /\
  length (List.filter isSetFilteredTodos (calls (trace (fetchTodos net)))) =
  length (List.filter isSetTodos (calls (trace (fetchTodos net)))).
Proof. fetch_cases net; split; reflexivity. Qed.

(** X10: the state an invocation ends in, slot by slot. When the [try]
    block throws, only the error slot and the loading flag are written: the
    raw collection, the filtered view and the mode are what they were.
    When it runs to its end, both collections are the decoded body, and the
    error slot and the mode are what they were. *)
Theorem fetchTodos_final_state (st : State) (net : Settled Response) :
  (forall reason,
     settlement (tryBlock net) = Rejected reason ->
     run st (trace (fetchTodos net)) =
       mkState (todos st) (filteredTodos st) false
               (Some (describe reason)) (filter st)) /\
  (forall response data,
     net = Fulfilled response -> ok response = true ->
     json response = Fulfilled data ->
     run st (trace (fetchTodos net)) =
       mkState data data false (error st) (filter st)).
Proof.
  split.
  - intros reason' Hthrown.
    destruct net as [[[] status_ [data|reason]]|reason];
      simpl in Hthrown; try discriminate Hthrown;
      injection Hthrown as <-; reflexivity.
  - intros response data -> Hok Hjson.
    rewrite fetchTodos_unfold, Hok, Hjson. reflexivity.
Qed.



(** ** Properties of the filter effect *)

Lemma completedFlag_None (item : Json) :
  completedFlag item = None <-> item = JNull.
Proof. destruct item; simpl; split; congruence. Qed.

Lemma filterItems_None (keep : bool -> bool) (items : list Json) :
  filterItems keep items = None <-> JNull ∈ items.
Proof.
  induction items as [|item items IH]; simpl.
  - split; [discriminate | intros H; by apply elem_of_nil in H].
  - rewrite elem_of_cons. destruct (completedFlag item) as [flag|] eqn:Hflag.
    + assert (Hne : JNull <> item).
      { intros <-. discriminate Hflag. }
      destruct (filterItems keep items) as [kept|].
      * split; [discriminate|]. intros [Heq|Hin]; [done|].
        by apply IH in Hin.
      * split; [|done]. intros _. right. by apply IH.
    + apply completedFlag_None in Hflag as ->. split; [by left | done].
Qed.

Lemma filterItems_sublist (keep : bool -> bool) (items kept : list Json) :
  filterItems keep items = Some kept -> kept `sublist_of` items.
Proof.
  revert kept. induction items as [|item items IH]; simpl; intros kept.
  - intros [= <-]. constructor.
  - destruct (completedFlag item) as [flag|]; [|discriminate].
    destruct (filterItems keep items) as [kept'|]; [|discriminate].
    intros [= <-]. destruct (keep flag).
    + by apply sublist_skip, IH.
    + by apply sublist_cons, IH.
Qed.

Lemma filterItems_todoJson (keep : bool -> bool) (records : list Todo) :
  filterItems keep (map todoJson records) =
  Some (map todoJson (List.filter (fun todo => keep (completed todo)) records)).
Proof.
  induction records as [|t records IH]; [done|].
  cbn [map filterItems List.filter]. rewrite IH.
  replace (completedFlag (todoJson t)) with (Some (completed t))
    by (destruct t as [? ? []]; reflexivity).
  by destruct (keep (completed t)).
Qed.

(** X12: the filter effect writes the filtered view and nothing else, and
    what it writes does not depend on the filtered view: the raw
    collection, the loading flag, the error slot and the mode are left as
    they were, and running the effect again changes nothing. *)
Theorem filterEffect_stable (st st' : State) :
  filterEffect st = Some st' ->
  todos st' = todos st /\ loading st' = loading st /\
  error st' = error st /\ filter st' = filter st /\
  filterEffect st' = Some st'.
Proof.
  unfold filterEffect. intros Hrun.
  destruct (updatedValue (todos st) (filter st)) as [updated|] eqn:Hup;
    [|discriminate].
  injection Hrun as <-. simpl. by rewrite Hup.
Qed.

Lemma filterEffect_stable_witness :
  filterEffect afterFailure = Some afterFailure /\
  error afterFailure = Some "Failed to fetch".
Proof.
  pose proof (filterEffect_stable afterFailure afterFailure eq_refl)
    as (_ & _ & _ & _ & Hagain).
  split; [exact Hagain | reflexivity].
Defined.

(** X13: when the raw collection holds a decoded value that is not an
    array, the effect publishes that value as the filtered view under mode
    [All], and throws under [Open] and under [Completed], where it calls
    the value's [filter]. *)
Theorem filterEffect_non_array (st : State) (value : Json) :
  todos st = Untyped value ->
  isArray value = false ->
  filterEffect st =
    if Filter_eqb (filter st) All
    then Some (write st (SetFilteredTodos (Untyped value)))
    else None.
Proof.
  intros Htodos Harr. unfold filterEffect. rewrite Htodos.
  destruct (filter st); simpl; [done| |]; by destruct value.
Qed.

Lemma filterEffect_non_array_witness :
  filterEffect (mkState (Untyped objectBody) (Records []) false None Open)
    = None.
Proof.
  exact (filterEffect_non_array
           (mkState (Untyped objectBody) (Records []) false None Open)
           objectBody eq_refl eq_refl).
Defined.

(** X14: when the raw collection holds a decoded array, the effect under
    [Open] or [Completed] throws exactly when one of the elements is
    [null], whose [completed] cannot be read. *)
Theorem filterEffect_null_element (st : State) (elements : list Json) :
  todos st = Untyped (JArray elements) ->
  filter st <> All ->
  (filterEffect st = None <-> JNull ∈ elements).
Proof.
  intros Htodos Hmode. unfold filterEffect. rewrite Htodos.
  destruct (filter st); [done| |]; simpl.
  - rewrite <- (filterItems_None negb elements).
    destruct (filterItems negb elements); simpl; split; congruence.
  - rewrite <- (filterItems_None (fun flag => flag) elements).
    destruct (filterItems (fun flag => flag) elements); simpl;
      split; congruence.
Qed.

Lemma filterEffect_null_element_witness :
  filterEffect
    (mkState (Untyped (JArray [todoJson milk; JNull])) (Records []) false
             None Completed) = None.
Proof.
  apply (filterEffect_null_element
           (mkState (Untyped (JArray [todoJson milk; JNull])) (Records [])
                    false None Completed)
           [todoJson milk; JNull]).
  - reflexivity.
  - discriminate.
  - apply list_elem_of_further, list_elem_of_here.
Defined.

(** X15: on a decoded array whose elements are task records as the decoder
    delivers them, the value the effect computes at run time is the decoded
    form of the projection of those records, under every mode. *)
Theorem updatedValue_todoJson (records : list Todo) (M : Filter) :
  updatedValue (Untyped (JArray (map todoJson records))) M =
  Some (Untyped (JArray (map todoJson (project records M)))).
Proof.
  destruct M; simpl; [done| |]; by rewrite filterItems_todoJson.
Qed.

(** X16: on any decoded array on which neither call throws, what the
    effect keeps under [Open] and what it keeps under [Completed] are
    subsequences of the array and together a rearrangement of it, whatever
    the shape of the elements. *)
Theorem filterItems_partition (elements opens dones : list Json) :
  filterItems negb elements = Some opens ->
  filterItems (fun flag => flag) elements = Some dones ->
  opens `sublist_of` elements /\
  dones `sublist_of` elements /\
  opens ++ dones ≡ₚ elements.
Proof.
  intros Hopens Hdones.
  split_and!; [by eapply filterItems_sublist..|].
  revert opens dones Hopens Hdones.
  induction elements as [|item elements IH]; simpl; intros opens dones.
  - by intros [= <-] [= <-].
  - destruct (completedFlag item) as [flag|]; [|discriminate].
    destruct (filterItems negb elements) as [opens'|]; [|discriminate].
    destruct (filterItems (fun flag => flag) elements) as [dones'|];
      [|discriminate].
    intros [= <-] [= <-]. specialize (IH _ _ eq_refl eq_refl).
    destruct flag; simpl.
    + rewrite <- Permutation_middle. by constructor.
    + by constructor.
Qed.

Lemma filterItems_partition_witness :
  [JNumber 3] ++ [todoJson bills] ≡ₚ [JNumber 3; todoJson bills].
Proof.
  apply (filterItems_partition [JNumber 3; todoJson bills]
           [JNumber 3] [todoJson bills] eq_refl eq_refl).
Defined.

(** ** The component over a session *)

Lemma Filter_eqb_eq (a b : Filter) : Filter_eqb a b = true <-> a = b.
Proof. destruct a, b; simpl; split; congruence. Qed.

Lemma filterClicked_inSync (st : State) (records : list Todo) (mode : Filter) :
  todos st = Records records ->
  filteredTodos st = Records (project records (filter st)) ->
  filterClicked st mode =
    Some (mkState (Records records) (Records (project records mode))
                  (loading st) (error st) mode).
Proof.
  intros Htodos Hview. unfold filterClicked.
  destruct (Filter_eqb mode (filter st)) eqn:Hsame.
  - apply Filter_eqb_eq in Hsame as ->.
    destruct st; simpl in *; by subst.
  - unfold filterEffect. simpl. by rewrite Htodos.
Qed.

Lemma mount_state (net : Settled Response) :
  mount net =
  Some (mkSession (mkState (Records []) (Records []) true None All) true).
Proof. fetch_cases net; reflexivity. Qed.

Lemma mount_sessionInv (net : Settled Response) :
  exists s,
    mount net = Some s /\ sessionInv net s /\
    filter (component s) = All /\ pending s = true.
Proof.
  rewrite mount_state. eexists. split; [reflexivity|].
  split_and!; try reflexivity.
  unfold sessionInv; simpl. split_and!; try reflexivity. by exists [].
Qed.

Lemma react_sessionInv (net : Settled Response) (s : Session) (i : Input) :
  wellTyped net = true ->
  sessionInv net s ->
  exists s',
    react net s i = Some s' /\ sessionInv net s' /\
    filter (component s') =
      match i with
      | FilterClick mode => mode
      | FetchSettles => filter (component s)
      end /\
    pending s' =
      match i with
      | FilterClick _ => pending s
      | FetchSettles => false
      end.
Proof.
  intros Htyped ((records & Htodos & Hview) & Hloading & Hphase).
  destruct i as [mode|]; simpl.
  - rewrite (filterClicked_inSync _ _ _ Htodos Hview). simpl.
    eexists. split; [reflexivity|]. split_and!; try reflexivity.
    unfold sessionInv; simpl. split_and!; [by eexists| done |].
    rewrite Htodos in Hphase. exact Hphase.
  - destruct s as [[todos_ view_ loading_ error_ mode] []]; simpl in *.
    + destruct Hphase as [-> ->]. injection Htodos as <-. subst.
      assert (Hempty : project [] mode = []) by by destruct mode.
      rewrite Hempty. clear Hempty.
      destruct net as [[[] status_ [[data|value]|reason]]|reason];
        try discriminate Htyped;
        (eexists; split; [reflexivity|]);
        (split_and!; try reflexivity);
        unfold sessionInv; simpl;
        (split_and!; try reflexivity);
        (eexists; split; [reflexivity | by destruct mode]).
    + eexists. split; [reflexivity|]. split_and!; try reflexivity.
      unfold sessionInv; simpl. destruct Hphase as [Hraw Herr].
      split_and!; try done. by exists records.
Qed.

Lemma reactAll_sessionInv
    (net : Settled Response) (inputs : list Input) (s : Session) :
  wellTyped net = true ->
  sessionInv net s ->
  exists s',
    reactAll net s inputs = Some s' /\ sessionInv net s' /\
    filter (component s') = lastClicked (filter (component s)) inputs /\
    pending s' = pending s && negb (settled inputs).
Proof.
  intros Htyped. revert s.
  induction inputs as [|i inputs IH]; intros s Hinv; simpl.
  - exists s. split_and!; try done. by rewrite andb_true_r.
  - destruct (react_sessionInv net s i Htyped Hinv)
      as (s1 & -> & Hinv1 & Hmode1 & Hpending1).
    destruct (IH s1 Hinv1) as (s' & Hrun & Hinv' & Hmode' & Hpending').
    exists s'. split_and!; try done.
    + rewrite Hmode', Hmode1. by destruct i.
    + rewrite Hpending', Hpending1. destruct i; simpl; [done|].
      by rewrite andb_false_r.
Qed.

Lemma session_sessionInv (net : Settled Response) (inputs : list Input) :
  wellTyped net = true ->
  exists s,
    session net inputs = Some s /\ sessionInv net s /\
    filter (component s) = lastClicked All inputs /\
    pending s = negb (settled inputs).
Proof.
  intros Htyped. unfold session.
  destruct (mount_sessionInv net) as (s0 & -> & Hinv0 & Hmode0 & Hpending0).
  destruct (reactAll_sessionInv net inputs s0 Htyped Hinv0)
    as (s & Hrun & Hinv & Hmode & Hpending).
  exists s. split_and!; try done.
  - by rewrite Hmode, Hmode0.
  - by rewrite Hpending, Hpending0.
Qed.

(** X17: when the network delivers a failure or an array of task records,
    no sequence of filter clicks and settlement makes an effect throw, and
    after every input the filtered view is the projection of the raw
    collection under the current mode. *)
Theorem session_in_sync (net : Settled Response) (inputs : list Input) :
  wellTyped net = true ->
  exists s, session net inputs = Some s /\ inSync (component s).
Proof.
  intros Htyped.
  destruct (session_sessionInv net inputs Htyped)
    as (s & Hrun & (Hsync & _) & _).
  by exists s.
Qed.

Lemma session_in_sync_witness :
  exists s,
    session (Fulfilled listResponse) [FilterClick Open; FetchSettles] = Some s /\
    inSync (component s).
Proof.
  apply (session_in_sync (Fulfilled listResponse)
           [FilterClick Open; FetchSettles]).
  reflexivity.
Defined.







(** ** What the user sees and can click *)



Lemma elem_of_map_todoItem (item : Item) (l : list Todo) :
  item ∈ map todoItem l <-> exists t, item = todoItem t /\ t ∈ l.
Proof.
  rewrite list_elem_of_In, in_map_iff. split.
  - intros (t & <- & Hin). exists t. by rewrite list_elem_of_In.
  - intros (t & -> & Hin). exists t. by rewrite <- list_elem_of_In.
Qed.

Lemma tryBlock_rejected_run (net : Settled Response) (reason : Thrown) :
  settlement (tryBlock net) = Rejected reason ->
  wellTyped net = true /\
  run initial (trace (fetchTodos net)) =
    mkState (Records []) (Records []) false (Some (describe reason)) All.
Proof.
  destruct net as [[[] status_ [data|reason']]|reason']; simpl;
    intros Hthrown; try discriminate Hthrown;
    injection Hthrown as <-; by split.
Qed.

(** X21: after a failed fetch the list is empty and the loading line is
    gone, and the error line shows the description of the failure behind a
    fixed prefix; but when that description is the empty string, as for an
    [Error] without a message, no error line is rendered at all. *)
Theorem failure_visibility
    (net : Settled Response) (inputs : list Input) (reason : Thrown) :
  settlement (tryBlock net) = Rejected reason ->
  settled inputs = true ->
  exists s,
    session net inputs = Some s /\
    filteredTodos (component s) = Records [] /\
    error (component s) = Some (describe reason) /\
    loadingLine (render (filter (component s)) (loading (component s))
                        (error (component s)) []) = None /\
    errorLine (render (filter (component s)) (loading (component s))
                      (error (component s)) []) =
      (if String.eqb (describe reason) "" then None
       else Some ("Error loading todos: " ++ describe reason)%string).
Proof.
  intros Hthrown Hsettled.
  destruct (tryBlock_rejected_run net reason Hthrown) as [Htyped Hdirect].
  destruct (session_sessionInv net inputs Htyped)
    as (s & Hrun & ((records & Htodos & Hview) & Hloading & Hphase)
          & Hmode & Hpending).
  rewrite Hsettled in Hpending. simpl in Hpending.
  rewrite Hpending, Hdirect in *. simpl in Hphase.
  destruct Hphase as [Hraw Herr]. rewrite Hraw in Htodos.
  injection Htodos as <-.
  exists s. split_and!; try done.
  - rewrite Hview. by destruct (filter (component s)).
  - simpl. by rewrite Hloading.
  - simpl. by rewrite Herr.
Qed.

Lemma failure_visibility_witness :
  exists s,
    session silentFailure [FetchSettles] = Some s /\
    error (component s) = Some "" /\
    errorLine (render (filter (component s)) (loading (component s))
                      (error (component s)) []) = None.
Proof.
  destruct (failure_visibility silentFailure [FetchSettles]
              (ErrorInstance "") eq_refl eq_refl)
    as (s & Hrun & _ & Herr & _ & Hline).
  exists s. split_and!; [exact Hrun | exact Herr | exact Hline].
Defined.

(** X22: the three filter buttons are always rendered, in the order All,
    Open, Completed, each wired to set its own mode, and exactly one of
    them carries the class [active]: the one of the current mode. *)
Theorem render_one_active_button
    (mode : Filter) (busy : bool) (message : option string)
    (view : list Todo) :
  map onClick (filterButtons (render mode busy message view)) =
    [SetFilter All; SetFilter Open; SetFilter Completed] /\
  map onClick
      (List.filter isActive (filterButtons (render mode busy message view))) =
    [SetFilter mode].
Proof. destruct mode; split; reflexivity. Qed.



(** X24: a click on the button of a rendered record calls [onSelectTodo]
    exactly once, with the identifier of a record of the filtered view,
    the one whose title the button shows, and leaves every state slot as
    it was. *)
Theorem click_rendered_item
    (st : State) (mode : Filter) (busy : bool) (message : option string)
    (view : list Todo) (item : Item) :
  item ∈ items (render mode busy message view) ->
  click st (button item) = (Some st, [key item]) /\
  exists t, t ∈ view /\ id t = key item /\ title t = label (button item).
Proof.
  simpl. intros (t & -> & Hin)%elem_of_map_todoItem.
  split; [reflexivity|]. by exists t.
Qed.

Lemma click_rendered_item_witness :
  click afterFailure (button (todoItem bills)) = (Some afterFailure, [2%Z]).
Proof.
  apply (click_rendered_item afterFailure Completed false None
           (project [milk; bills] Completed) (todoItem bills)).
  apply list_elem_of_here.
Defined.

(** X25: in a state whose view is in sync, a click on a filter button
    never throws and never calls [onSelectTodo]; afterwards the mode is the
    button's, the view is in sync under it, and the raw collection, the
    loading flag and the error slot are untouched. *)
Theorem click_filter_button (st : State) (b : Button) (mode : Filter) :
  inSync st ->
  onClick b = SetFilter mode ->
  exists st',
    click st b = (Some st', []) /\
    inSync st' /\ filter st' = mode /\
    todos st' = todos st /\ loading st' = loading st /\
    error st' = error st.
Proof.
  intros (records & Htodos & Hview) Hclick. unfold click. rewrite Hclick.
  rewrite (filterClicked_inSync _ _ _ Htodos Hview).
  eexists. split; [reflexivity|]. simpl. split_and!; try done.
  by exists records.
Qed.

Lemma click_filter_button_witness :
  exists st',
    click initial (mkButton "filter-open" (Some "") "Open" (SetFilter Open))
      = (Some st', []) /\
    filter st' = Open.
Proof.
  assert (Hsync : inSync initial) by (by exists []).
  destruct (click_filter_button initial
              (mkButton "filter-open" (Some "") "Open" (SetFilter Open))
              Open Hsync eq_refl)
    as (st' & Hrun & _ & Hmode & _).
  exists st'. split; [exact Hrun | exact Hmode].
Defined.
